(** * create_icons.py: the placeholder icon generator

    A shallow embedding of [demo-app/assets/create_icons.py] and of the
    part of its collaborators (the imaging library, the file system of
    the working directory, standard output) that the script touches,
    followed by the properties the specification states about a run. *)

From Stdlib Require Import ZArith Ascii Strings.Byte.
From stdpp Require Import gmap strings list fin_maps pretty.

Local Open Scope Z_scope.
#[local] Set Warnings "-clear-no-such-hyp".

(** ** Images *)

Module Image.

(** The script only ever asks for the mode ['RGB']. *)
Inductive Mode := RGB.

(** A colour is the Python tuple [(r, g, b)]. *)
Definition Color : Type := Z * Z * Z.

(** An image carries its mode, its size [(width, height)] and the pixel
    buffer, row after row. *)
Record t := mk { mode : Mode; size : Z * Z; im : list Color }.

Definition width (img : t) : Z := fst (size img).
Definition height (img : t) : Z := snd (size img).

(** A channel given as a Python int is stored in one byte: the library
    clips it into 0..255. *)
Definition clip8 (v : Z) : Z := Z.max 0 (Z.min 255 v).

Definition ink (color : Color) : Color :=
  let '(r, g, b) := color in (clip8 r, clip8 g, clip8 b).

(** The buffer of a fresh canvas: [width * height] copies of the ink. *)
Definition fill (m : Mode) (sz : Z * Z) (color : Color) : t :=
  {| mode := m; size := sz;
     im := replicate (Z.to_nat (fst sz * snd sz)) (ink color) |}.

(** [img.getpixel((x, y))]: a negative coordinate counts from the far
    edge; [None] stands for the IndexError raised outside the canvas. *)
Definition getpixel (img : t) (xy : Z * Z) : option Color :=
  let x := if bool_decide (xy.1 < 0) then width img + xy.1 else xy.1 in
  let y := if bool_decide (xy.2 < 0) then height img + xy.2 else xy.2 in
  if bool_decide (0 ≤ x < width img ∧ 0 ≤ y < height img)
  then im img !! Z.to_nat (y * width img + x)
  else None.

End Image.

Arguments Image.fill : simpl never.

(** ** The world a run acts on *)

(** The files of the working directory, by name. *)
Abbreviation FS := (gmap string (list byte)).

(** What a run does to the outside, in the order it does it. *)
Inductive Event :=
| EvWrite (fp : string) (img : Image.t)   (* [fp] holds the whole encoding of [img] *)
| EvTorn (fp : string)                    (* writing [fp] started and broke off *)
| EvPrint (text : string).                (* [text] went to standard output *)

Record World := mkWorld {
  files : FS;
  stdout : string;
  trace : list Event
}.

(** How a write can go wrong on the host: the file cannot be opened
    (nothing is touched), or it is opened and the write breaks off after
    [partial] reached the disk.  In the second case the library tries to
    remove the file if the call created it; [removed] tells whether it
    gets that far (it does not when closing the file fails as well, as
    on a full disk). *)
Inductive Fault :=
| Denied
| Broken (partial : list byte) (removed : bool).

(** The directory after a write of [fp] that broke off: a file that was
    there holds [partial]; a file the call created is gone again if the
    library removed it and holds [partial] otherwise. *)
Definition torn (fp : string) (partial : list byte) (removed : bool)
    (fs : FS) : FS :=
  if removed then alter (λ _, partial) fp fs else <[fp := partial]> fs.

(** The host decides whether a canvas of a given size can be allocated
    and whether a path can be written. *)
Record Host := mkHost {
  can_alloc : Z → Z → bool;
  write_fault : string → option Fault
}.

Inductive Exn := ValueError | MemoryError | OSError.

(** A computation ends normally with a value or with an unhandled
    exception; both leave a world behind. *)
Inductive Result (A : Type) :=
| Ok (a : A) (w : World)
| Raise (e : Exn) (w : World).
Arguments Ok {A} a w.
Arguments Raise {A} e w.

Definition world_of {A} (r : Result A) : World :=
  match r with Ok _ w => w | Raise _ w => w end.

Definition succeeded {A} (r : Result A) : bool :=
  match r with Ok _ _ => true | Raise _ _ => false end.

(** Statements run on a host in a world. *)
Definition M (A : Type) : Type := Host → World → Result A.

#[global] Instance M_ret : MRet M := λ A a _ w, Ok a w.

#[global] Instance M_bind : MBind M := λ A B f m h w,
  match m h w with
  | Ok a w' => f a h w'
  | Raise e w' => Raise e w'
  end.

Definition newline : string := String "010"%char "".

Section Script.

(** The encoder of the imaging library: the bytes of the file whose
    format the extension of [fp] selects.  It is a function of the path
    and the image alone. *)
Variable encode : string → Image.t → list byte.

(** [Image.new(mode, size, color)] *)
Definition Image_new (mode : Image.Mode) (size : Z * Z) (color : Image.Color)
  : M Image.t := λ h w,
  if bool_decide (fst size < 0 ∨ snd size < 0) then Raise ValueError w
  else if can_alloc h (fst size) (snd size)
       then Ok (Image.fill mode size color) w
       else Raise MemoryError w.

(** [img.save(fp)]: the file is opened for writing, which truncates it,
    and receives the encoding.  When the write breaks off, the directory
    is left [torn]. *)
Definition Image_save (img : Image.t) (fp : string) : M unit := λ h w,
  match write_fault h fp with
  | None =>
      Ok tt {| files := <[fp := encode fp img]> (files w);
               stdout := stdout w;
               trace := trace w ++ [EvWrite fp img] |}
  | Some Denied => Raise OSError w
  | Some (Broken partial removed) =>
      Raise OSError {| files := torn fp partial removed (files w);
                       stdout := stdout w;
                       trace := trace w ++ [EvTorn fp] |}
  end.

(** [print(text)]: the text and a newline go to standard output, which
    is taken to be open and to accept them. *)
Definition print (text : string) : M unit := λ _ w,
  Ok tt {| files := files w;
           stdout := stdout w +:+ text +:+ newline;
           trace := trace w ++ [EvPrint (text +:+ newline)] |}.

(** The module body of [create_icons.py].  Line 1 imports the library,
    which is [Image_new] and [Image_save] here. *)
Definition main : M unit :=
  (* Icon 1024x1024 *)
  img ← Image_new Image.RGB (1024, 1024) (28, 28, 30);
  Image_save img "icon.png";;
  (* Splash 1284x2778 *)
  splash ← Image_new Image.RGB (1284, 2778) (28, 28, 30);
  Image_save splash "splash-icon.png";;
  print "Icons created!".

(** One run of the script: a fresh process, nothing printed yet, in a
    working directory that holds [fs]. *)
Definition run (h : Host) (fs : FS) : Result unit :=
  main h {| files := fs; stdout := ""; trace := [] |}.

End Script.

(** The canvases the names [img] and [splash] are bound to once their
    allocation went through. *)
Definition img : Image.t := Image.fill Image.RGB (1024, 1024) (28, 28, 30).
Definition splash : Image.t := Image.fill Image.RGB (1284, 2778) (28, 28, 30).

(** A stand-in encoder that writes a header only, and a few hosts, to
    run the script on. *)
Definition enc0 (fp : string) (img : Image.t) : list byte :=
  String.list_byte_of_string
    ("P6 " +:+ pretty (Image.width img) +:+ " " +:+ pretty (Image.height img)).

(** A host that grants everything. *)
Definition good_host : Host :=
  {| can_alloc := λ _ _, true; write_fault := λ _, None |}.

(** A host whose file system is mounted read-only: no file, new or
    existing, can be opened for writing. *)
Definition readonly_host : Host :=
  {| can_alloc := λ _ _, true; write_fault := λ _, Some Denied |}.

(** A host whose disk fills up while the splash screen is written. *)
Definition small_disk_host : Host :=
  {| can_alloc := λ _ _, true;
     write_fault := λ fp,
       if String.eqb fp "splash-icon.png" then Some (Broken [Byte.x89] false)
       else None |}.

(** A host whose disk fills up while the icon is written. *)
Definition full_disk_host : Host :=
  {| can_alloc := λ _ _, true; write_fault := λ _, Some (Broken [] false) |}.

(** A host with too little memory for the larger canvas. *)
Definition small_memory_host : Host :=
  {| can_alloc := λ w h, bool_decide (w * h ≤ 2000000);
     write_fault := λ _, None |}.

(** A host on which writing the icon is interrupted after one byte and
    the library cleans up behind itself. *)
Definition interrupted_host : Host :=
  {| can_alloc := λ _ _, true;
     write_fault := λ fp,
       if String.eqb fp "icon.png" then Some (Broken [Byte.x89] true)
       else None |}.

(** A host with no memory to spare at all. *)
Definition no_memory_host : Host :=
  {| can_alloc := λ _ _, false; write_fault := λ _, None |}.

(** ** Observing a run *)

(** The path an event modified, if it is a write. *)
Definition written_path (e : Event) : option string :=
  match e with
  | EvWrite fp _ | EvTorn fp => Some fp
  | EvPrint _ => None
  end.

(** The paths written during a run, in order, and the texts printed. *)
Definition writes (tr : list Event) : list string := omap written_path tr.

Definition printed (tr : list Event) : list string :=
  omap (λ e, match e with EvPrint text => Some text | _ => None end) tr.

(** The events the script is expected to cause. *)
Definition expected (e : Event) : Prop :=
  match e with
  | EvWrite fp _ | EvTorn fp => fp = "icon.png" ∨ fp = "splash-icon.png"
  | EvPrint text => text = "Icons created!" +:+ newline
  end.

(** [steps_within R m]: whatever the host does and however [m] ends,
    the world it leaves is related by [R] to the one it started in. *)
Definition steps_within {A} (R : relation World) (m : M A) : Prop :=
  ∀ h w, R w (world_of (m h w)).

(** Files other than the two targets keep their content and the trace
    grows by expected events only. *)
Definition frame : relation World := λ w w',
  (∀ fp, fp ≠ "icon.png" → fp ≠ "splash-icon.png" →
         files w' !! fp = files w !! fp)
  ∧ ∃ tr, trace w' = trace w ++ tr ∧ Forall expected tr.

(** ** Facts about canvases *)

Module ImageFacts.
Import Image.

Lemma clip8_range v : 0 ≤ clip8 v ≤ 255.
Proof. unfold clip8. lia. Qed.

Lemma clip8_id v : 0 ≤ v ≤ 255 → clip8 v = v.
Proof. unfold clip8. lia. Qed.

Lemma ink_id r g b :
  0 ≤ r ≤ 255 → 0 ≤ g ≤ 255 → 0 ≤ b ≤ 255 → ink (r, g, b) = (r, g, b).
Proof. intros. unfold ink. by rewrite !clip8_id. Qed.

Lemma fill_im_Forall m sz c : Forall (eq (ink c)) (im (fill m sz c)).
Proof.
  unfold fill; simpl. generalize (Z.to_nat (sz.1 * sz.2)) as n.
  induction n as [|n IH]; simpl; constructor; auto.
Qed.

Lemma fill_length m w h c :
  0 ≤ w → 0 ≤ h → Z.of_nat (length (im (fill m (w, h) c))) = w * h.
Proof. intros. unfold fill; simpl. rewrite length_replicate. nia. Qed.

Lemma fill_getpixel m w h c x y :
  0 ≤ x < w → 0 ≤ y < h → getpixel (fill m (w, h) c) (x, y) = Some (ink c).
Proof.
  intros Hx Hy. unfold getpixel, width, height, fill; simpl.
  rewrite !(bool_decide_eq_false_2 (_ < 0)) by lia.
  rewrite bool_decide_eq_true_2 by done.
  apply lookup_replicate_2. nia.
Qed.

(** Negative coordinates read the canvas from its far edge. *)
Lemma fill_getpixel_negative m w h c x y :
  - w ≤ x < 0 → - h ≤ y < 0 →
  getpixel (fill m (w, h) c) (x, y) = Some (ink c).
Proof.
  intros Hx Hy. unfold getpixel, width, height, fill; simpl.
  rewrite !(bool_decide_eq_true_2 (_ < 0)) by lia.
  rewrite bool_decide_eq_true_2 by lia.
  apply lookup_replicate_2. nia.
Qed.

Lemma fill_getpixel_outside m w h c x y :
  w ≤ x ∨ x < - w ∨ h ≤ y ∨ y < - h →
  getpixel (fill m (w, h) c) (x, y) = None.
Proof.
  intros Hout. unfold getpixel, width, height, fill; simpl.
  repeat case_bool_decide; try done; lia.
Qed.

End ImageFacts.

(** ** Facts about a directory left torn *)

Lemma lookup_torn_ne fp fp' partial removed (fs : FS) :
  fp ≠ fp' → torn fp partial removed fs !! fp' = fs !! fp'.
Proof.
  intros. unfold torn. destruct removed;
    [by apply lookup_alter_ne|by apply lookup_insert_ne].
Qed.

Lemma lookup_torn_existing fp partial removed (fs : FS) :
  is_Some (fs !! fp) → torn fp partial removed fs !! fp = Some partial.
Proof.
  intros [old Hold]. unfold torn. destruct removed.
  - by rewrite lookup_alter_eq, Hold.
  - apply lookup_insert_eq.
Qed.

Lemma dom_torn_lower fp partial removed (fs : FS) :
  dom fs ⊆ dom (torn fp partial removed fs).
Proof.
  unfold torn. destruct removed;
    rewrite ?dom_alter_L, ?dom_insert_L; set_solver.
Qed.

Lemma dom_torn_upper fp partial removed (fs : FS) :
  dom (torn fp partial removed fs) ⊆ dom fs ∪ {[fp]}.
Proof.
  unfold torn. destruct removed;
    rewrite ?dom_alter_L, ?dom_insert_L; set_solver.
Qed.


(** ** The statements, one at a time *)

Section Steps.
Variable encode : string → Image.t → list byte.

Lemma Image_new_eq m wd ht c h w :
  0 ≤ wd → 0 ≤ ht →
  Image_new m (wd, ht) c h w =
    if can_alloc h wd ht then Ok (Image.fill m (wd, ht) c) w
    else Raise MemoryError w.
Proof.
  intros. unfold Image_new; simpl.
  rewrite bool_decide_eq_false_2 by lia. done.
Qed.

Lemma bind_eq {A B} (m : M A) (f : A → M B) h w :
  (m ≫= f) h w =
    match m h w with Ok a w' => f a h w' | Raise e w' => Raise e w' end.
Proof. reflexivity. Qed.

#[local] Instance frame_refl : Reflexive frame.
Proof.
  intros w. split; [done|]. exists []. by rewrite app_nil_r.
Qed.

#[local] Instance frame_trans : Transitive frame.
Proof.
  intros w1 w2 w3 [Hf12 (tr12 & Ht12 & He12)] [Hf23 (tr23 & Ht23 & He23)].
  split.
  - intros fp ??. rewrite Hf23, Hf12; done.
  - exists (tr12 ++ tr23). rewrite Ht23, Ht12, app_assoc.
    split; [done|]. by apply Forall_app.
Qed.

Lemma steps_within_bind {A B} (R : relation World) `{!Transitive R}
    (m : M A) (f : A → M B) :
  steps_within R m → (∀ a, steps_within R (f a)) → steps_within R (m ≫= f).
Proof.
  intros Hm Hf h w. rewrite bind_eq.
  specialize (Hm h w). destruct (m h w) as [a w'|e w']; simpl in *.
  - etrans; [exact Hm|apply Hf].
  - done.
Qed.

Lemma Image_new_frame m sz c : steps_within frame (Image_new m sz c).
Proof.
  intros h w. unfold Image_new.
  case_bool_decide; [reflexivity|]. destruct (can_alloc _ _ _); reflexivity.
Qed.

Lemma Image_save_frame img fp :
  fp = "icon.png" ∨ fp = "splash-icon.png" →
  steps_within frame (Image_save encode img fp).
Proof.
  intros Hfp h w. unfold Image_save.
  destruct (write_fault h fp) as [[|partial removed]|]; simpl.
  - reflexivity.
  - split; simpl.
    + intros fp' ??. apply lookup_torn_ne. by destruct Hfp as [->| ->].
    + exists [EvTorn fp]. split; [done|]. by apply Forall_singleton.
  - split; simpl.
    + intros fp' ??. apply lookup_insert_ne. by destruct Hfp as [->| ->].
    + exists [EvWrite fp img]. split; [done|]. by apply Forall_singleton.
Qed.

Lemma print_frame : steps_within frame (print "Icons created!").
Proof.
  intros h w. split; simpl; [done|].
  exists [EvPrint ("Icons created!" +:+ newline)].
  split; [done|]. by apply Forall_singleton.
Qed.

(** A run, spelled out along the answers of the host. *)
Lemma run_eq h fs :
  run encode h fs =
    if can_alloc h 1024 1024 then
      match write_fault h "icon.png" with
      | Some Denied =>
          Raise OSError {| files := fs; stdout := ""; trace := [] |}
      | Some (Broken partial removed) =>
          Raise OSError {| files := torn "icon.png" partial removed fs;
                           stdout := "";
                           trace := [EvTorn "icon.png"] |}
      | None =>
          let fs1 := <["icon.png" := encode "icon.png" img]> fs in
          if can_alloc h 1284 2778 then
            match write_fault h "splash-icon.png" with
            | Some Denied =>
                Raise OSError {| files := fs1; stdout := "";
                                 trace := [EvWrite "icon.png" img] |}
            | Some (Broken partial removed) =>
                Raise OSError
                  {| files := torn "splash-icon.png" partial removed fs1;
                     stdout := "";
                     trace := [EvWrite "icon.png" img;
                               EvTorn "splash-icon.png"] |}
            | None =>
                Ok tt
                  {| files := <["splash-icon.png" :=
                                  encode "splash-icon.png" splash]> fs1;
                     stdout := "Icons created!" +:+ newline;
                     trace := [EvWrite "icon.png" img;
                               EvWrite "splash-icon.png" splash;
                               EvPrint ("Icons created!" +:+ newline)] |}
            end
          else Raise MemoryError {| files := fs1; stdout := "";
                                    trace := [EvWrite "icon.png" img] |}
      end
    else Raise MemoryError {| files := fs; stdout := ""; trace := [] |}.
Proof.
  unfold run, main. rewrite bind_eq, Image_new_eq by lia.
  destruct (can_alloc h 1024 1024); [|done].
  rewrite bind_eq. unfold Image_save at 1.
  destruct (write_fault h "icon.png") as [[|partial removed]|]; [done..|].
  rewrite bind_eq, Image_new_eq by lia.
  destruct (can_alloc h 1284 2778); [|done].
  rewrite bind_eq. unfold Image_save.
  destruct (write_fault h "splash-icon.png") as [[|partial removed]|]; done.
Qed.

Lemma main_frame : steps_within frame (main encode).
Proof.
  unfold main.
  repeat (apply steps_within_bind; [apply _| |intros ?]);
    auto using Image_new_frame, Image_save_frame, print_frame.
Qed.

End Steps.

Ltac run_cases h :=
  rewrite ?run_eq;
  destruct (can_alloc h 1024 1024),
           (write_fault h "icon.png") as [[|? ?]|],
           (can_alloc h 1284 2778),
           (write_fault h "splash-icon.png") as [[|? ?]|];
  simpl.

(** Every image a run writes out is one of the two canvases. *)
Lemma written_image encode h fs fp image :
  EvWrite fp image ∈ trace (world_of (run encode h fs)) →
  (fp = "icon.png" ∧ image = img) ∨ (fp = "splash-icon.png" ∧ image = splash).
Proof.
  run_cases h; rewrite ?elem_of_cons, ?elem_of_nil;
    intuition (try discriminate);
    repeat match goal with H : EvWrite _ _ = _ |- _ => injection H as <- <- end;
    auto.
Qed.

(** A run succeeds exactly when the host grants both allocations and
    both writes. *)
Lemma succeeded_iff encode h fs :
  succeeded (run encode h fs) = true ↔
    can_alloc h 1024 1024 = true ∧ write_fault h "icon.png" = None ∧
    can_alloc h 1284 2778 = true ∧ write_fault h "splash-icon.png" = None.
Proof. run_cases h; intuition discriminate. Qed.

(** What a run that succeeds returns. *)
Lemma run_succeeded encode h fs :
  succeeded (run encode h fs) = true →
  run encode h fs =
    Ok tt {| files := <["splash-icon.png" := encode "splash-icon.png" splash]>
                        (<["icon.png" := encode "icon.png" img]> fs);
             stdout := "Icons created!" +:+ newline;
             trace := [EvWrite "icon.png" img;
                       EvWrite "splash-icon.png" splash;
                       EvPrint ("Icons created!" +:+ newline)] |}.
Proof. run_cases h; done. Qed.

(** Whether a run succeeds is up to the host, not to the directory. *)
Lemma succeeded_any_fs encode h fs fs' :
  succeeded (run encode h fs) = succeeded (run encode h fs').
Proof. run_cases h; done. Qed.

(** A file whose write completed holds the encoding of the image
    written, whatever happens later in the run. *)
Lemma written_file encode h fs fp image :
  EvWrite fp image ∈ trace (world_of (run encode h fs)) →
  files (world_of (run encode h fs)) !! fp = Some (encode fp image).
Proof.
  run_cases h; rewrite ?elem_of_cons, ?elem_of_nil;
    generalize img splash; intros i s Hin;
    repeat match goal with
           | H : _ ∨ _ |- _ => destruct H
           | H : EvWrite _ _ = EvWrite _ _ |- _ => injection H as -> ->
           end;
    try done;
    rewrite ?lookup_torn_ne by done; by simplify_map_eq.
Qed.

(** What a run does, and in which order, is up to the host, not to the
    directory. *)
Lemma trace_any_fs encode h fs fs' :
  trace (world_of (run encode h fs)) = trace (world_of (run encode h fs')).
Proof. run_cases h; done. Qed.

(** ** Some runs *)

Example run_in_empty_directory :
  files (world_of (run enc0 good_host ∅)) =
    {[ "icon.png" := String.list_byte_of_string "P6 1024 1024";
       "splash-icon.png" := String.list_byte_of_string "P6 1284 2778" ]}
  ∧ stdout (world_of (run enc0 good_host ∅)) = "Icons created!" +:+ newline.
Proof. split; vm_compute; reflexivity. Qed.

Example run_in_readonly_directory :
  run enc0 readonly_host {["icon.png" := [Byte.x00]]} =
    Raise OSError {| files := {["icon.png" := [Byte.x00]]};
                     stdout := ""; trace := [] |}.
Proof. reflexivity. Qed.

Example run_on_small_disk :
  files (world_of (run enc0 small_disk_host ∅)) =
    {[ "icon.png" := String.list_byte_of_string "P6 1024 1024";
       "splash-icon.png" := [Byte.x89] ]}
  ∧ files (world_of (run enc0 small_disk_host
                       {["splash-icon.png" := [Byte.x00; Byte.x01]]}))
      !! "splash-icon.png" = Some [Byte.x89]
  ∧ stdout (world_of (run enc0 small_disk_host ∅)) = "".
Proof. repeat split; vm_compute; reflexivity. Qed.

Example run_interrupted :
  run enc0 interrupted_host ∅ =
    Raise OSError {| files := ∅; stdout := ""; trace := [EvTorn "icon.png"] |}
  ∧ files (world_of (run enc0 interrupted_host
                       {["icon.png" := [Byte.x00; Byte.x01]]}))
    = {["icon.png" := [Byte.x89]]}.
Proof. split; vm_compute; reflexivity. Qed.

Example run_with_small_memory :
  succeeded (run enc0 small_memory_host ∅) = false
  ∧ writes (trace (world_of (run enc0 small_memory_host ∅))) = ["icon.png"].
Proof. split; vm_compute; reflexivity. Qed.

(** ** The properties of a run *)

(** C1: every image a run writes to a file, whichever of the two files
    it is, is an RGB canvas whose buffer holds the colour (28, 28, 30) in
    every position, each channel being a byte value; reading any pixel
    inside the canvas returns that colour. *)
Theorem produced_images_solid_color encode h fs fp image :
  EvWrite fp image ∈ trace (world_of (run encode h fs)) →
  Image.mode image = Image.RGB
  ∧ Forall (eq (28, 28, 30)) (Image.im image)
  ∧ Z.of_nat (length (Image.im image)) = Image.width image * Image.height image
  ∧ ∀ x y, 0 ≤ x < Image.width image → 0 ≤ y < Image.height image →
           Image.getpixel image (x, y) = Some (28, 28, 30).
Proof.
  intros [[-> ->]|[-> ->]]%written_image.
  - split; [done|]. split; [apply (ImageFacts.fill_im_Forall _ _ (28, 28, 30))|].
    split; [by apply ImageFacts.fill_length|].
    intros x y Hx Hy. by apply (ImageFacts.fill_getpixel _ _ _ (28, 28, 30)).
  - split; [done|]. split; [apply (ImageFacts.fill_im_Forall _ _ (28, 28, 30))|].
    split; [by apply ImageFacts.fill_length|].
    intros x y Hx Hy. by apply (ImageFacts.fill_getpixel _ _ _ (28, 28, 30)).
Qed.

Lemma produced_images_solid_color_witness :
  EvWrite "splash-icon.png" splash ∈ trace (world_of (run enc0 good_host ∅))
  ∧ Image.getpixel splash (1283, 2777) = Some (28, 28, 30).
Proof.
  assert (Hin : EvWrite "splash-icon.png" splash
                ∈ trace (world_of (run enc0 good_host ∅))).
  { apply list_elem_of_further, list_elem_of_here. }
  split; [exact Hin|].
  apply (produced_images_solid_color enc0 good_host ∅ _ _ Hin);
    cbv [splash Image.fill Image.width Image.height Image.size fst snd]; lia.
Defined.

(** C2: in every run, an image written to [icon.png] is 1024 pixels wide
    and 1024 pixels high. *)
Theorem icon_dimensions encode h fs image :
  EvWrite "icon.png" image ∈ trace (world_of (run encode h fs)) →
  Image.width image = 1024 ∧ Image.height image = 1024.
Proof.
  intros [[_ ->]|[? _]]%written_image; [by split|simplify_eq].
Qed.

Lemma icon_dimensions_witness :
  EvWrite "icon.png" img ∈ trace (world_of (run enc0 small_disk_host ∅))
  ∧ Image.width img = 1024 ∧ Image.height img = 1024.
Proof.
  assert (Hin : EvWrite "icon.png" img
                ∈ trace (world_of (run enc0 small_disk_host ∅))).
  { apply list_elem_of_here. }
  split; [exact Hin|].
  exact (icon_dimensions enc0 small_disk_host ∅ img Hin).
Defined.

(** C3: in every run, an image written to [splash-icon.png] is 1284
    pixels wide and 2778 pixels high. *)
Theorem splash_dimensions encode h fs image :
  EvWrite "splash-icon.png" image ∈ trace (world_of (run encode h fs)) →
  Image.width image = 1284 ∧ Image.height image = 2778.
Proof.
  intros [[? _]|[_ ->]]%written_image; [simplify_eq|by split].
Qed.

Lemma splash_dimensions_witness :
  EvWrite "splash-icon.png" splash
    ∈ trace (world_of (run enc0 good_host {["notes.txt" := [Byte.x41]]}))
  ∧ Image.width splash = 1284 ∧ Image.height splash = 2778.
Proof.
  assert (Hin : EvWrite "splash-icon.png" splash
      ∈ trace (world_of (run enc0 good_host {["notes.txt" := [Byte.x41]]}))).
  { apply list_elem_of_further, list_elem_of_here. }
  split; [exact Hin|].
  exact (splash_dimensions enc0 good_host _ splash Hin).
Defined.

(** C4: a run that succeeds leaves exactly one line on standard output,
    [Icons created!] and a newline, and printing it is the last thing
    the run does: both files have been written in full before. *)
Theorem success_prints_one_line_last encode h fs :
  succeeded (run encode h fs) = true →
  stdout (world_of (run encode h fs)) = "Icons created!" +:+ newline
  ∧ printed (trace (world_of (run encode h fs)))
    = ["Icons created!" +:+ newline]
  ∧ trace (world_of (run encode h fs))
    = [EvWrite "icon.png" img; EvWrite "splash-icon.png" splash;
       EvPrint ("Icons created!" +:+ newline)]
  ∧ files (world_of (run encode h fs)) !! "icon.png"
    = Some (encode "icon.png" img)
  ∧ files (world_of (run encode h fs)) !! "splash-icon.png"
    = Some (encode "splash-icon.png" splash).
Proof.
  run_cases h; try discriminate. intros _.
  repeat split; by simplify_map_eq.
Qed.

Lemma success_prints_one_line_last_witness :
  succeeded (run enc0 good_host ∅) = true
  ∧ stdout (world_of (run enc0 good_host ∅)) = "Icons created!" +:+ newline.
Proof.
  assert (Hok : succeeded (run enc0 good_host ∅) = true) by reflexivity.
  split; [exact Hok|].
  exact (proj1 (success_prints_one_line_last enc0 good_host ∅ Hok)).
Defined.

(** C5: when the host refuses an allocation or a write, the run ends
    with an exception and standard output stays empty: the confirmation
    is never printed, neither whole nor in part. *)
Theorem failure_prints_nothing encode h fs :
  can_alloc h 1024 1024 = false ∨ is_Some (write_fault h "icon.png") ∨
  can_alloc h 1284 2778 = false ∨ is_Some (write_fault h "splash-icon.png") →
  succeeded (run encode h fs) = false
  ∧ stdout (world_of (run encode h fs)) = ""
  ∧ printed (trace (world_of (run encode h fs))) = [].
Proof.
  intros Hfault. run_cases h; try done;
    destruct Hfault as [?|[[? ?]|[?|[? ?]]]]; discriminate.
Qed.

Lemma failure_prints_nothing_witness :
  is_Some (write_fault readonly_host "icon.png")
  ∧ succeeded (run enc0 readonly_host ∅) = false
  ∧ stdout (world_of (run enc0 readonly_host ∅)) = "".
Proof.
  assert (Hro : is_Some (write_fault readonly_host "icon.png"))
    by (simpl; eauto).
  split; [exact Hro|].
  destruct (failure_prints_nothing enc0 readonly_host ∅
              (or_intror (or_introl Hro))) as (Hfail & Hout & _).
  split; [exact Hfail|exact Hout].
Defined.

(** Two runs that succeed, on whatever hosts and in whatever
    directories, leave the same bytes in [icon.png] and the same bytes in
    [splash-icon.png], and print the same; a second run in the directory
    the first one left changes no file at all. *)
Lemma successful_runs_agree encode h1 h2 fs1 fs2 :
  succeeded (run encode h1 fs1) = true →
  succeeded (run encode h2 fs2) = true →
  files (world_of (run encode h1 fs1)) !! "icon.png"
    = files (world_of (run encode h2 fs2)) !! "icon.png"
  ∧ files (world_of (run encode h1 fs1)) !! "splash-icon.png"
    = files (world_of (run encode h2 fs2)) !! "splash-icon.png"
  ∧ stdout (world_of (run encode h1 fs1))
    = stdout (world_of (run encode h2 fs2))
  ∧ files (world_of (run encode h2 (files (world_of (run encode h1 fs1)))))
    = files (world_of (run encode h1 fs1)).
Proof.
  intros Hok1 Hok2.
  assert (Hok3 : succeeded (run encode h2 (files (world_of (run encode h1 fs1))))
                 = true)
    by (by rewrite (succeeded_any_fs _ _ _ fs2)).
  rewrite (run_succeeded _ _ _ Hok3).
  rewrite (run_succeeded _ _ _ Hok1), (run_succeeded _ _ _ Hok2); simpl.
  repeat split; try by simplify_map_eq.
  apply map_eq; intros fp.
  destruct (decide (fp = "splash-icon.png")) as [->|];
    [by simplify_map_eq|].
  destruct (decide (fp = "icon.png")) as [->|]; by simplify_map_eq.
Qed.

(** Two runs need not leave the same bytes in [icon.png].  In a
    directory that holds an [icon.png], a run on a host that grants
    everything leaves the encoding there, a run on a host whose disk is
    full leaves a file cut short. *)
Lemma runs_differ_on_full_disk :
  files (world_of (run enc0 good_host {["icon.png" := [Byte.x00]]}))
    !! "icon.png"
  ≠ files (world_of (run enc0 full_disk_host {["icon.png" := [Byte.x00]]}))
      !! "icon.png".
Proof. vm_compute. discriminate. Qed.

(** C6: for any two runs, on whatever hosts and in whatever
    directories, a target that both runs write in full receives the same
    image in both and holds the same bytes after both, the encoding of
    that image: nothing a run writes depends on the host, on the
    directory it starts in, or on anything but the encoder, which is a
    function.  The runs need not succeed as a whole. *)
Theorem completed_writes_agree encode h1 h2 fs1 fs2 fp image1 image2 :
  EvWrite fp image1 ∈ trace (world_of (run encode h1 fs1)) →
  EvWrite fp image2 ∈ trace (world_of (run encode h2 fs2)) →
  image1 = image2
  ∧ files (world_of (run encode h1 fs1)) !! fp = Some (encode fp image1)
  ∧ files (world_of (run encode h1 fs1)) !! fp
    = files (world_of (run encode h2 fs2)) !! fp.
Proof.
  intros Hin1 Hin2.
  rewrite (written_file _ _ _ _ _ Hin1), (written_file _ _ _ _ _ Hin2).
  destruct (written_image _ _ _ _ _ Hin1) as [[Hfp ->]|[Hfp ->]];
    destruct (written_image _ _ _ _ _ Hin2) as [[Hfp' ->]|[Hfp' ->]];
    try (rewrite Hfp in Hfp'; discriminate Hfp'); done.
Qed.

Lemma completed_writes_agree_witness :
  EvWrite "icon.png" img ∈ trace (world_of (run enc0 good_host ∅))
  ∧ EvWrite "icon.png" img
      ∈ trace (world_of (run enc0 small_disk_host {["icon.png" := [Byte.x00]]}))
  ∧ succeeded (run enc0 small_disk_host {["icon.png" := [Byte.x00]]}) = false
  ∧ files (world_of (run enc0 good_host ∅)) !! "icon.png"
    = files (world_of (run enc0 small_disk_host {["icon.png" := [Byte.x00]]}))
        !! "icon.png".
Proof.
  assert (Hin1 : EvWrite "icon.png" img
                 ∈ trace (world_of (run enc0 good_host ∅))).
  { apply list_elem_of_here. }
  assert (Hin2 : EvWrite "icon.png" img
    ∈ trace (world_of (run enc0 small_disk_host {["icon.png" := [Byte.x00]]}))).
  { apply list_elem_of_here. }
  split; [exact Hin1|]. split; [exact Hin2|]. split; [reflexivity|].
  exact (proj2 (proj2 (completed_writes_agree enc0 good_host small_disk_host
                         ∅ {["icon.png" := [Byte.x00]]} _ _ _ Hin1 Hin2))).
Defined.

(** A run need not leave the new image in a target that existed.  On
    a host whose disk is full the write of
    [icon.png] breaks off and the file that was there is left cut short. *)
Lemma full_disk_leaves_icon_cut_short :
  files (world_of (run enc0 full_disk_host
                     {["icon.png" := [Byte.x00; Byte.x01]]})) !! "icon.png"
  ≠ Some (enc0 "icon.png" img).
Proof. vm_compute. discriminate. Qed.

(** C7: a write the run completes replaces the target whatever
    the directory held.  If a run writes a file in full, the file is one
    of the two targets and the image the canvas just built; started in
    any other directory, with or without a file of that name and
    whatever its content, the run completes the same write and the file
    holds afterwards exactly the encoding, nothing of its former
    content: there is no existence check, no skip, no append.  After a
    run that succeeds the directory is the former one with both targets
    replaced. *)
Theorem completed_write_overwrites encode h fs fp image :
  EvWrite fp image ∈ trace (world_of (run encode h fs)) →
  ((fp = "icon.png" ∧ image = img) ∨ (fp = "splash-icon.png" ∧ image = splash))
  ∧ (∀ fs', EvWrite fp image ∈ trace (world_of (run encode h fs'))
            ∧ files (world_of (run encode h fs')) !! fp
              = Some (encode fp image))
  ∧ (succeeded (run encode h fs) = false
     ∨ files (world_of (run encode h fs))
       = <["splash-icon.png" := encode "splash-icon.png" splash]>
           (<["icon.png" := encode "icon.png" img]> fs)).
Proof.
  intros Hin. split; [exact (written_image _ _ _ _ _ Hin)|]. split.
  - intros fs'.
    assert (Hin' : EvWrite fp image ∈ trace (world_of (run encode h fs')))
      by (by rewrite (trace_any_fs _ _ fs' fs)).
    split; [exact Hin'|]. by apply written_file.
  - destruct (succeeded (run encode h fs)) eqn:Hok; [right|by left].
    by rewrite (run_succeeded _ _ _ Hok).
Qed.

Lemma completed_write_overwrites_witness :
  EvWrite "icon.png" img ∈ trace (world_of (run enc0 small_disk_host ∅))
  ∧ files (world_of (run enc0 small_disk_host
                       {["icon.png" := [Byte.x00; Byte.x01]]})) !! "icon.png"
    = Some (enc0 "icon.png" img).
Proof.
  assert (Hin : EvWrite "icon.png" img
                ∈ trace (world_of (run enc0 small_disk_host ∅))).
  { apply list_elem_of_here. }
  split; [exact Hin|].
  exact (proj2 (proj1 (proj2 (completed_write_overwrites enc0 small_disk_host
                                ∅ _ _ Hin))
                  {["icon.png" := [Byte.x00; Byte.x01]]})).
Defined.

(** C8: in every run the files are written in the order of the script:
    the paths written, as they follow one another, are an initial part
    of [icon.png], [splash-icon.png], and all of it when the run
    succeeds. *)
Theorem icon_written_before_splash encode h fs :
  writes (trace (world_of (run encode h fs)))
    `prefix_of` ["icon.png"; "splash-icon.png"]
  ∧ (succeeded (run encode h fs) = false
     ∨ writes (trace (world_of (run encode h fs)))
       = ["icon.png"; "splash-icon.png"]).
Proof.
  run_cases h; (split; [|by auto]);
    solve [repeat first [apply prefix_nil | apply prefix_cons]].
Qed.

(** C9: a run touches nothing but its two files and standard output.
    Every other file of the directory keeps its content and no file but
    the two targets appears; every event of the run is a write to a
    target or the confirmation; standard output is empty or the one line;
    and the directory the run starts in has no influence on whether it
    succeeds, on what it prints or on what it writes. *)
Theorem run_frame encode h fs :
  delete "icon.png" (delete "splash-icon.png" (files (world_of (run encode h fs))))
    = delete "icon.png" (delete "splash-icon.png" fs)
  ∧ dom (files (world_of (run encode h fs)))
      ⊆ dom fs ∪ {["icon.png"; "splash-icon.png"]}
  ∧ (succeeded (run encode h fs) = false
     ∨ dom (files (world_of (run encode h fs)))
       = dom fs ∪ {["icon.png"; "splash-icon.png"]})
  ∧ Forall expected (trace (world_of (run encode h fs)))
  ∧ (stdout (world_of (run encode h fs)) = ""
     ∨ stdout (world_of (run encode h fs)) = "Icons created!" +:+ newline)
  ∧ ∀ fs', succeeded (run encode h fs') = succeeded (run encode h fs)
           ∧ stdout (world_of (run encode h fs'))
             = stdout (world_of (run encode h fs))
           ∧ trace (world_of (run encode h fs'))
             = trace (world_of (run encode h fs)).
Proof.
  destruct (main_frame encode h {| files := fs; stdout := ""; trace := [] |})
    as [Hfiles (tr & Htr & Hexp)].
  fold (run encode h fs) in Hfiles, Htr. simpl in Hfiles, Htr.
  split; [|split; [|split; [|split; [|split]]]].
  - apply map_eq; intros fp. rewrite !lookup_delete.
    repeat case_decide; auto.
  - run_cases h; try (etrans; [apply dom_torn_upper|]);
      rewrite ?dom_insert_L; set_solver.
  - run_cases h; rewrite ?dom_insert_L; auto. right. set_solver.
  - by rewrite Htr.
  - run_cases h; auto.
  - intros fs'. run_cases h; done.
Qed.

(** C10: when the host refuses or breaks off the write of [icon.png], the
    run ends with an exception, [splash-icon.png] is what it was (absent
    if it was absent), nothing is printed, and the only thing the run may
    have touched is [icon.png]. *)
Theorem icon_failure_leaves_splash_and_stdout encode h fs :
  is_Some (write_fault h "icon.png") →
  succeeded (run encode h fs) = false
  ∧ files (world_of (run encode h fs)) !! "splash-icon.png"
    = fs !! "splash-icon.png"
  ∧ stdout (world_of (run encode h fs)) = ""
  ∧ (trace (world_of (run encode h fs)) = []
     ∨ trace (world_of (run encode h fs)) = [EvTorn "icon.png"]).
Proof.
  intros [f Hf]. run_cases h; try discriminate;
    rewrite ?lookup_torn_ne by done; auto.
Qed.

Lemma icon_failure_leaves_splash_and_stdout_witness :
  is_Some (write_fault full_disk_host "icon.png")
  ∧ files (world_of (run enc0 full_disk_host
                       {["icon.png" := [Byte.x00];
                         "splash-icon.png" := [Byte.x01]]}))
      !! "splash-icon.png" = Some [Byte.x01]
  ∧ stdout (world_of (run enc0 full_disk_host
                        {["icon.png" := [Byte.x00];
                          "splash-icon.png" := [Byte.x01]]})) = "".
Proof.
  assert (Hfault : is_Some (write_fault full_disk_host "icon.png"))
    by (simpl; eauto).
  split; [exact Hfault|].
  destruct (icon_failure_leaves_splash_and_stdout enc0 full_disk_host
              {["icon.png" := [Byte.x00]; "splash-icon.png" := [Byte.x01]]}
              Hfault) as (_ & Hsplash & Hout & _).
  split; [|exact Hout].
  rewrite Hsplash. reflexivity.
Defined.

(** ** Further properties of the module body *)

(** Whatever a first run did to the directory, writing both targets
    afterwards gives the same directory as writing them at once. *)
Lemma targets_cover_first_run encode h fs icon_bytes splash_bytes :
  <["splash-icon.png" := splash_bytes]>
    (<["icon.png" := icon_bytes]> (files (world_of (run encode h fs))))
  = <["splash-icon.png" := splash_bytes]> (<["icon.png" := icon_bytes]> fs).
Proof.
  destruct (main_frame encode h {| files := fs; stdout := ""; trace := [] |})
    as [Hfiles _].
  fold (run encode h fs) in Hfiles. simpl in Hfiles.
  apply map_eq; intros fp.
  destruct (decide (fp = "splash-icon.png")) as [->|Hs];
    [by rewrite !lookup_insert_eq|].
  rewrite !(lookup_insert_ne _ "splash-icon.png") by done.
  destruct (decide (fp = "icon.png")) as [->|Hi];
    [by rewrite !lookup_insert_eq|].
  rewrite !(lookup_insert_ne _ "icon.png") by done. by apply Hfiles.
Qed.

(** X2: nothing is rolled back.  When the icon has been written and the
    run then fails on the splash screen, at its allocation or at its
    write, [icon.png] keeps the new encoding although the run ends with
    an exception and prints nothing. *)
Theorem later_failure_keeps_new_icon encode h fs :
  can_alloc h 1024 1024 = true →
  write_fault h "icon.png" = None →
  can_alloc h 1284 2778 = false ∨ is_Some (write_fault h "splash-icon.png") →
  succeeded (run encode h fs) = false
  ∧ files (world_of (run encode h fs)) !! "icon.png"
    = Some (encode "icon.png" img)
  ∧ writes (trace (world_of (run encode h fs))) !! 0%nat = Some "icon.png"
  ∧ stdout (world_of (run encode h fs)) = "".
Proof.
  intros Ha1 Hw1 Hlater. rewrite run_eq, Ha1, Hw1.
  destruct (can_alloc h 1284 2778);
    [|simpl; by rewrite lookup_insert_eq].
  destruct Hlater as [?|[f Hf]]; [discriminate|]. rewrite Hf.
  destruct f as [|partial removed]; simpl; [by rewrite lookup_insert_eq|].
  rewrite lookup_torn_ne by done. by rewrite lookup_insert_eq.
Qed.

Lemma later_failure_keeps_new_icon_witness :
  can_alloc small_memory_host 1024 1024 = true
  ∧ write_fault small_memory_host "icon.png" = None
  ∧ can_alloc small_memory_host 1284 2778 = false
  ∧ succeeded (run enc0 small_memory_host {["icon.png" := [Byte.x00]]}) = false
  ∧ files (world_of (run enc0 small_memory_host {["icon.png" := [Byte.x00]]}))
      !! "icon.png" = Some (enc0 "icon.png" img).
Proof.
  assert (Ha1 : can_alloc small_memory_host 1024 1024 = true) by reflexivity.
  assert (Hw1 : write_fault small_memory_host "icon.png" = None)
    by reflexivity.
  assert (Ha2 : can_alloc small_memory_host 1284 2778 = false)
    by reflexivity.
  destruct (later_failure_keeps_new_icon enc0 small_memory_host
              {["icon.png" := [Byte.x00]]} Ha1 Hw1 (or_introl Ha2))
    as (Hfail & Hicon & _).
  repeat split; assumption.
Defined.

(** X3: the first canvas is allocated before any output is attempted.
    When that allocation is refused the run ends in [MemoryError] with
    the directory, standard output and the trace exactly as they were,
    whatever the host would have answered to the later steps. *)
Theorem refused_icon_allocation_touches_nothing encode h fs :
  can_alloc h 1024 1024 = false →
  run encode h fs
  = Raise MemoryError {| files := fs; stdout := ""; trace := [] |}.
Proof. intros Ha1. by rewrite run_eq, Ha1. Qed.

Lemma refused_icon_allocation_touches_nothing_witness :
  can_alloc no_memory_host 1024 1024 = false
  ∧ run enc0 no_memory_host {["icon.png" := [Byte.x00]]}
    = Raise MemoryError {| files := {["icon.png" := [Byte.x00]]};
                           stdout := ""; trace := [] |}.
Proof.
  assert (Ha1 : can_alloc no_memory_host 1024 1024 = false) by reflexivity.
  split; [exact Ha1|].
  exact (refused_icon_allocation_touches_nothing enc0 no_memory_host _ Ha1).
Defined.

(** X4: running again repairs a failed run.  Whatever an earlier run did,
    on whatever host and however it ended, a run that succeeds in the
    directory it left ends with the same files as a run that succeeds in
    the original directory: nothing of a broken write survives. *)
Theorem rerun_repairs encode h1 h2 fs :
  succeeded (run encode h2 fs) = true →
  succeeded (run encode h2 (files (world_of (run encode h1 fs)))) = true
  ∧ files (world_of (run encode h2 (files (world_of (run encode h1 fs)))))
    = files (world_of (run encode h2 fs)).
Proof.
  intros Hok.
  assert (Hok' : succeeded (run encode h2 (files (world_of (run encode h1 fs))))
                 = true)
    by (by rewrite (succeeded_any_fs _ _ _ fs)).
  split; [exact Hok'|].
  rewrite (run_succeeded _ _ _ Hok'), (run_succeeded _ _ _ Hok); simpl.
  apply targets_cover_first_run.
Qed.

Lemma rerun_repairs_witness :
  succeeded (run enc0 good_host {["icon.png" := [Byte.x00; Byte.x01]]}) = true
  ∧ files (world_of (run enc0 full_disk_host
                       {["icon.png" := [Byte.x00; Byte.x01]]})) !! "icon.png"
    = Some []
  ∧ files (world_of (run enc0 good_host
             (files (world_of (run enc0 full_disk_host
                                 {["icon.png" := [Byte.x00; Byte.x01]]})))))
    = files (world_of (run enc0 good_host
                         {["icon.png" := [Byte.x00; Byte.x01]]})).
Proof.
  assert (Hok : succeeded (run enc0 good_host
                             {["icon.png" := [Byte.x00; Byte.x01]]}) = true)
    by reflexivity.
  split; [exact Hok|]. split; [vm_compute; reflexivity|].
  exact (proj2 (rerun_repairs enc0 full_disk_host good_host _ Hok)).
Defined.

(** X5: a run never removes a file.  Every name present in the
    directory before the run is present after it, the two targets
    included, whether the run succeeds, is refused or breaks off in the
    middle of a write. *)
Theorem run_removes_no_file encode h fs :
  dom fs ⊆ dom (files (world_of (run encode h fs))).
Proof.
  run_cases h; try (etrans; [|apply dom_torn_lower]);
    rewrite ?dom_insert_L; set_solver.
Qed.
